(** * MetaRate (streamlit_app.py): assignment, action log and progress tracking

    A shallow embedding of [streamlit_app.py] and the properties of its
    review-assignment and progress-tracking engine.

    Conventions of the embedding.
    - A cell of a spreadsheet, a username, a path and a [rating_id] are
      strings.  A spreadsheet file is given by what [read_excel] makes of
      it: the frame it returns, or the exception it raises.
    - The file system is explicit: the logs directory is a finite map from
      the username in [LOGS_DIR / f"{username}_action_log.xlsx"] to the
      content of that file, a key that is absent being a file that does not
      exist.  A report file is given by the JSON objects of its lines, all
      of which parse.
    - [log_action_files] files the frame that [log_action] hands to
      [to_excel] under the username as it stands.  pandas does more than
      that: [to_excel] can fail, two usernames can name one file, and
      [read_excel] types the cells of a written file again (the text of a
      number comes back as a number, an empty cell and "N/A" as missing).
      The properties therefore speak of the frame that [log_action] hands
      to [to_excel] ([log_action_frame]), of what is computed from a log as
      it is read, and of the calls of [log_action] that an execution makes;
      none of them says what a written log reads back as.
    - One execution of the script is a computation in a state-and-exception
      monad over the session state, the logs directory and the widgets
      drawn so far; [st.rerun()] and an uncaught Python exception both stop
      the execution and keep the state reached.
    - The cached loaders read files that no execution writes, so they are
      read from the same [disk] throughout.  [initialize_admin_user], which
      adds the [is_admin] column to the users file once, and the tables of
      the admin page are left out: no property speaks of the value of
      [is_admin] that a login sets, nor of what the admin page does after
      its back button. *)

From stdpp Require Import base option list strings gmap fin_sets.

Set Warnings "-clear-no-such-hyp".

Local Open Scope string_scope.
Local Open Scope list_scope.
Local Open Scope nat_scope.

(** ** Configuration *)

Definition DEFAULT_REPORT_FILE : string := "rating_reports.jsonl".

(** [columns] of [log_action]. *)
Definition LOG_COLUMNS : list string :=
  ["Timestamp"; "Username"; "Action"; "Report ID"; "Rating"; "Comments"].

(** ** Python exceptions met by the program *)

Inductive exn :=
| KeyError (key : string)
| AttributeError (name : string)
| BadWorkbook
| StreamlitAPIException.

(** ** The fragment of pandas the program uses *)

Module pd.

Record DataFrame := { columns : list string; rows : list (list string) }.

(** Position of the first column called [c]. *)
Fixpoint get_loc (c : string) (cols : list string) : option nat :=
  match cols with
  | [] => None
  | c' :: cols' =>
      if decide (c' = c) then Some 0 else S <$> get_loc c cols'
  end.

(** [row[i]], an absent cell reading as the empty cell. *)
Definition cell (i : nat) (row : list string) : string := nth i row "".

(** [df[c]]: the column as a series, [KeyError] when there is none. *)
Definition getitem (df : DataFrame) (c : string) : exn + list string :=
  match get_loc c (columns df) with
  | None => inl (KeyError c)
  | Some i => inr (cell i <$> rows df)
  end.

(** [series == v]. *)
Definition eq_mask (series : list string) (v : string) : list bool :=
  (λ x, bool_decide (x = v)) <$> series.

(** [df[mask]]: the rows whose mask is true, under the same columns. *)
Fixpoint select (mask : list bool) (rs : list (list string))
  : list (list string) :=
  match mask, rs with
  | b :: mask', r :: rs' =>
      if b then r :: select mask' rs' else select mask' rs'
  | _, _ => []
  end.

Definition getitem_mask (df : DataFrame) (mask : list bool) : DataFrame :=
  {| columns := columns df; rows := select mask (rows df) |}.

(** [series.unique()]: the values in order of first appearance. *)
Fixpoint unique_from (seen : list string) (l : list string) : list string :=
  match l with
  | [] => []
  | x :: l' =>
      if decide (x ∈ seen) then unique_from seen l'
      else x :: unique_from (x :: seen) l'
  end.

Definition unique (l : list string) : list string := unique_from [] l.

(** [pd.concat([a, b], ignore_index=True)] for frames over the same
    columns, the only use the program makes of it. *)
Definition concat (a b : DataFrame) : DataFrame :=
  {| columns := columns a; rows := rows a ++ rows b |}.

(** A spreadsheet file: one that [read_excel] opens, or any other bytes. *)
Inductive xlsx :=
| Workbook (df : DataFrame)
| Garbage.

Definition read_excel (f : xlsx) : exn + DataFrame :=
  match f with
  | Workbook df => inr df
  | Garbage => inl BadWorkbook
  end.

End pd.

Global Instance DataFrame_eq_dec : EqDecision pd.DataFrame.
Proof. solve_decision. Defined.

Global Instance xlsx_eq_dec : EqDecision pd.xlsx.
Proof. solve_decision. Defined.

Global Instance exn_eq_dec : EqDecision exn.
Proof. solve_decision. Defined.

(** ** The action log (lines 28-49 and 97-106) *)

(** The one-row frame [new_log_entry]. *)
Definition new_log_entry
    (timestamp username action report_id rating comments : string)
  : pd.DataFrame :=
  {| pd.columns := LOG_COLUMNS;
     pd.rows := [[timestamp; username; action; report_id; rating; comments]] |}.

(** The body of the [try] of [log_action] up to [to_excel]: the frame that
    is written, or the exception that is caught. *)
Definition log_action_frame (log_file : option pd.xlsx)
    (new_entry : pd.DataFrame) : exn + pd.DataFrame :=
  match log_file with
  | Some f =>
      match pd.read_excel f with
      | inl e => inl e
      | inr log_df =>
          if decide (pd.columns log_df ≠ LOG_COLUMNS)
          then inr new_entry
          else inr (pd.concat log_df new_entry)
      end
  | None => inr new_entry
  end.

(** The effect of [log_action] on the logs directory; the second component
    is the exception shown by [st.sidebar.error], if any.  The frame handed
    to [to_excel] is filed as it is (see the conventions). *)
Definition log_action_files (logs : gmap string pd.xlsx)
    (timestamp username action report_id rating comments : string)
  : gmap string pd.xlsx * option exn :=
  match log_action_frame (logs !! username)
          (new_log_entry timestamp username action report_id rating comments)
  with
  | inr log_df => (<[username := pd.Workbook log_df]> logs, None)
  | inl e => (logs, Some e)
  end.

(** The expression of line 104, before [set(...)]. *)
Definition submitted_ids (log_df : pd.DataFrame) : exn + list string :=
  match pd.getitem log_df "Action" with
  | inl e => inl e
  | inr actions =>
      match pd.getitem (pd.getitem_mask log_df (pd.eq_mask actions "Submit Rating"))
                       "Report ID" with
      | inl e => inl e
      | inr ids => inr (pd.unique ids)
      end
  end.

Definition get_rated_reports (logs : gmap string pd.xlsx) (username : string)
  : gset string :=
  match logs !! username with
  | None => ∅
  | Some f =>
      match pd.read_excel f with
      | inl _ => ∅
      | inr log_df =>
          match submitted_ids log_df with
          | inl _ => ∅
          | inr ids => list_to_set ids
          end
      end
  end.

(** ** Assignment of users to report files (lines 61-70) *)

(** The [for] loop over [mapping.items()] and the fallback after it. *)
Fixpoint scan_mapping (username : string)
    (items : list (string * list string)) : string :=
  match items with
  | [] => DEFAULT_REPORT_FILE
  | (report_file, users) :: items' =>
      if decide (username ∈ users) then report_file
      else scan_mapping username items'
  end.

(** [mapping_file] is [None] when [user_report_mapping.json] does not exist,
    and otherwise the items of the JSON object in file order. *)
Definition get_report_file_for_user
    (mapping_file : option (list (string * list string)))
    (username : string) : string :=
  match mapping_file with
  | None => DEFAULT_REPORT_FILE
  | Some mapping => scan_mapping username mapping
  end.

(** ** The report store (lines 72-95) *)

(** [reports.append(json.loads(line))] for each line. *)
Definition load_reports (data : gmap string (list (gmap string string)))
    (file_path : string) : list (gmap string string) :=
  match data !! file_path with
  | None => []
  | Some lines => foldl (λ reports line, reports ++ [line]) [] lines
  end.

Definition load_all_reports (data : gmap string (list (gmap string string)))
    (report_file : option string) : list (gmap string string) :=
  match report_file with
  | None => []
  | Some p => load_reports data p
  end.

Fixpoint find_report (rating_id : string) (reports : list (gmap string string))
  : option (gmap string string) :=
  match reports with
  | [] => None
  | report :: reports' =>
      if decide (report !! "rating_id" = Some rating_id) then Some report
      else find_report rating_id reports'
  end.

Definition get_report_by_id (data : gmap string (list (gmap string string)))
    (rating_id : string) (report_file : string)
  : option (gmap string string) :=
  find_report rating_id (load_all_reports data (Some report_file)).

(** ** Selection of the next report (lines 165-168 and 211-214) *)

(** [r.get('rating_id') not in rated_reports]. *)
Definition unrated (rated_reports : gset string) (r : gmap string string)
  : bool :=
  match r !! "rating_id" with
  | None => true
  | Some i => bool_decide (i ∉ rated_reports)
  end.

Definition reports_to_rate (all_reports : list (gmap string string))
    (rated_reports : gset string) : list (gmap string string) :=
  List.filter (unrated rated_reports) all_reports.

(** What the two call sites do with [reports_to_rate]: nothing is left,
    or [reports_to_rate[0]['rating_id']] is selected, or that subscript
    raises [KeyError]. *)
Inductive selection :=
| AllRated
| Next (rating_id : string)
| NoRatingId.

Definition next_unrated (all_reports : list (gmap string string))
    (rated_reports : gset string) : selection :=
  match reports_to_rate all_reports rated_reports with
  | [] => AllRated
  | r :: _ =>
      match r !! "rating_id" with
      | Some i => Next i
      | None => NoRatingId
      end
  end.

(** ** The users file and the read-only files of one deployment *)

(** A row of [users.xlsx]; [row_is_admin] is [None] when the file has no
    [is_admin] column. *)
Record user_row := {
  row_username : string;
  row_password : string;
  row_is_admin : option bool }.

Record disk := {
  users_file : option (list user_row);
  mapping_file : option (list (string * list string));
  data_files : gmap string (list (gmap string string)) }.

(** [load_users]: [None] when the users file does not exist. *)
Definition load_users (d : disk) : option (list user_row) := users_file d.

(** ** Session state, widgets and events *)

(** [st.session_state].  [logged_in] and [page] are set together by the
    router when the session starts and are never deleted; the other three
    attributes come and go. *)
Record session_state := {
  logged_in : bool;
  page : string;
  username : option string;
  is_admin : option bool;
  selected_report_id : option string }.

Definition fresh_session : session_state :=
  {| logged_in := false; page := "login"; username := None;
     is_admin := None; selected_report_id := None |}.

Definition set_logged_in (b : bool) (s : session_state) : session_state :=
  {| logged_in := b; page := page s; username := username s;
     is_admin := is_admin s; selected_report_id := selected_report_id s |}.

Definition set_page (p : string) (s : session_state) : session_state :=
  {| logged_in := logged_in s; page := p; username := username s;
     is_admin := is_admin s; selected_report_id := selected_report_id s |}.

Definition set_username (u : option string) (s : session_state)
  : session_state :=
  {| logged_in := logged_in s; page := page s; username := u;
     is_admin := is_admin s; selected_report_id := selected_report_id s |}.

Definition set_is_admin (a : option bool) (s : session_state)
  : session_state :=
  {| logged_in := logged_in s; page := page s; username := username s;
     is_admin := a; selected_report_id := selected_report_id s |}.

Definition set_selected_report_id (r : option string) (s : session_state)
  : session_state :=
  {| logged_in := logged_in s; page := page s; username := username s;
     is_admin := is_admin s; selected_report_id := r |}.

(** The four options of the radio button. *)
Inductive rating := NoError | LateralityError | NegationError | OtherError.

Definition rating_label (r : rating) : string :=
  match r with
  | NoError => "No error"
  | LateralityError => "Laterality error"
  | NegationError => "Negation error"
  | OtherError => "Other error"
  end.

(** What the user did to trigger this execution of the script: at most one
    button is pressed, and a form button carries the values of its form. *)
Inductive ui_event :=
| NoEvent
| LoginSubmit (username password : string)
| ClickLogout
| ClickStart
| ClickBack
| ClickSubmit (r : rating) (comments : string).

(** The widgets the properties speak of. *)
Inductive widget :=
| st_title (s : string)
| st_error (s : string)
| st_success (s : string)
| st_sidebar_error (e : exn)
| st_progress (rated_count total_reports : nat)
| st_markdown (rated_count total_reports : nat)
| st_text (s : string).

(** ** Executions of the script *)

Record app := {
  session : session_state;
  logs : gmap string pd.xlsx;
  screen : list widget }.

Inductive outcome (A : Type) :=
| Done (a : A)
| Rerun
| Raised (e : exn).
Arguments Done {A} a.
Arguments Rerun {A}.
Arguments Raised {A} e.

Definition script (A : Type) : Type := app → outcome A * app.

Global Instance script_ret : MRet script := λ A a st, (Done a, st).

Global Instance script_bind : MBind script := λ A B f m st,
  match m st with
  | (Done a, st') => f a st'
  | (Rerun, st') => (Rerun, st')
  | (Raised e, st') => (Raised e, st')
  end.

Definition st_rerun {A} : script A := λ st, (Rerun, st).

Definition raise {A} (e : exn) : script A := λ st, (Raised e, st).

Definition get_session : script session_state := λ st, (Done (session st), st).

Definition modify_session (f : session_state → session_state) : script unit :=
  λ st, (Done (), {| session := f (session st); logs := logs st;
                     screen := screen st |}).

Definition draw (w : widget) : script unit :=
  λ st, (Done (), {| session := session st; logs := logs st;
                     screen := screen st ++ [w] |}).

(** Reading an attribute of [st.session_state] that may be absent. *)
Definition getattr {A} (name : string) (field : session_state → option A)
  : script A :=
  λ st, match field (session st) with
        | Some a => (Done a, st)
        | None => (Raised (AttributeError name), st)
        end.

(** [r[key]] on a JSON object. *)
Definition subscript (r : gmap string string) (key : string) : script string :=
  match r !! key with
  | Some v => mret v
  | None => raise (KeyError key)
  end.

Definition log_action (timestamp username action report_id rating comments
                        : string) : script unit :=
  λ st,
    match log_action_files (logs st) timestamp username action report_id
            rating comments with
    | (logs', None) =>
        (Done (), {| session := session st; logs := logs';
                     screen := screen st |})
    | (logs', Some e) =>
        (Done (), {| session := session st; logs := logs';
                     screen := screen st ++ [st_sidebar_error e] |})
    end.

Definition rated_reports_of (username : string) : script (gset string) :=
  λ st, (Done (get_rated_reports (logs st) username), st).

(** [st.progress(value)] accepts a value between 0 and 1 and raises
    otherwise; the value is [rated_count / total_reports], or 0 when there
    is no report. *)
Definition progress_bar (rated_count total_reports : nat) : script unit :=
  if decide (total_reports = 0 ∨ rated_count ≤ total_reports)
  then draw (st_progress rated_count total_reports)
  else raise StreamlitAPIException.

(** ** The pages (lines 110-245) *)

(** [users_df[users_df['username'] == username]]. *)
Definition user_record (users_df : list user_row) (username : string)
  : list user_row :=
  List.filter (λ row, bool_decide (row_username row = username)) users_df.

Definition login_failed (timestamp username : string) : script unit :=
  draw (st_error "Invalid username or password");;
  if decide (username ≠ "")
  then log_action timestamp username "Login Fail" "" "" ""
  else mret ().

Definition draw_login_page (d : disk) (timestamp : string) (ev : ui_event)
  : script unit :=
  draw (st_title "MetaRate Login");;
  match load_users d with
  | None => draw (st_error "User file not found at users.xlsx")
  | Some users_df =>
      match ev with
      | LoginSubmit username password =>
          match user_record users_df username with
          | row :: _ =>
              if decide (row_password row = password) then
                modify_session (set_logged_in true);;
                modify_session (set_username (Some username));;
                modify_session
                  (set_is_admin (Some (default false (row_is_admin row))));;
                modify_session (set_page "progress");;
                log_action timestamp username "Login Success" "" "" "";;
                st_rerun
              else login_failed timestamp username
          | [] => login_failed timestamp username
          end
      | _ => mret ()
      end
  end.

Definition draw_progress_page (d : disk) (timestamp : string) (ev : ui_event)
  : script unit :=
  draw (st_title "Your Progress");;
  username ← getattr "username" username;
  match ev with
  | ClickLogout =>
      log_action timestamp username "Logout" "" "" "";;
      modify_session (set_logged_in false);;
      modify_session (set_page "login");;
      modify_session (set_username None);;
      modify_session (set_is_admin None);;
      st_rerun
  | _ => mret ()
  end;;
  let report_file := get_report_file_for_user (mapping_file d) username in
  let all_reports := load_all_reports (data_files d) (Some report_file) in
  rated_reports ← rated_reports_of username;
  let total_reports := length all_reports in
  let rated_count := size rated_reports in
  progress_bar rated_count total_reports;;
  draw (st_markdown rated_count total_reports);;
  match ev with
  | ClickStart =>
      match reports_to_rate all_reports rated_reports with
      | r :: _ =>
          modify_session (set_page "rating");;
          rating_id ← subscript r "rating_id";
          modify_session (set_selected_report_id (Some rating_id));;
          st_rerun
      | [] => draw (st_success "You have rated all available reports!")
      end
  | _ => mret ()
  end.

Definition draw_rating_page (d : disk) (timestamp : string) (ev : ui_event)
  : script unit :=
  selected ← getattr "selected_report_id" selected_report_id;
  username ← getattr "username" username;
  let report_file := get_report_file_for_user (mapping_file d) username in
  match get_report_by_id (data_files d) selected report_file with
  | None =>
      draw (st_error "Report not found.");;
      modify_session (set_page "progress");;
      st_rerun
  | Some report =>
      draw (st_title (String.append "Rating Report: " selected));;
      match ev with
      | ClickBack =>
          log_action timestamp username "Back to Progress" selected "" "";;
          modify_session (set_page "progress");;
          modify_session (set_selected_report_id None);;
          st_rerun
      | _ => mret ()
      end;;
      draw (st_text (default "N/A" (report !! "report_to_rate")));;
      match ev with
      | ClickSubmit r comments =>
          log_action timestamp username "Submit Rating" selected
                     (rating_label r) comments;;
          draw (st_success "Rating submitted!");;
          let all_reports :=
            load_all_reports (data_files d) (Some report_file) in
          logged ← rated_reports_of username;
          let rated_reports := logged ∪ {[selected]} in
          match reports_to_rate all_reports rated_reports with
          | r' :: _ =>
              rating_id ← subscript r' "rating_id";
              modify_session (set_selected_report_id (Some rating_id));;
              st_rerun
          | [] =>
              modify_session (set_page "progress");;
              modify_session (set_selected_report_id None);;
              st_rerun
          end
      | _ => mret ()
      end
  end.

(** The admin page: its title and its back button; what follows lists the
    log files and the users file in tables. *)
Definition draw_admin_page (ev : ui_event) : script unit :=
  draw (st_title "Admin Page");;
  match ev with
  | ClickBack => modify_session (set_page "progress");; st_rerun
  | _ => mret ()
  end.

(** ** The router (lines 251-266) *)

(** Truth value of [st.session_state.get('is_admin')]. *)
Definition admin_flag (s : session_state) : bool := default false (is_admin s).

Definition main (d : disk) (timestamp : string) (ev : ui_event) : script unit :=
  s ← get_session;
  if negb (logged_in s) then draw_login_page d timestamp ev
  else if decide (page s = "progress") then draw_progress_page d timestamp ev
  else if decide (page s = "rating") then draw_rating_page d timestamp ev
  else if bool_decide (page s = "admin") && admin_flag s
       then draw_admin_page ev
  else modify_session (set_page "progress");; st_rerun.

(** One execution of the script, from a cleared screen. *)
Definition run_script (d : disk) (timestamp : string) (ev : ui_event)
    (s : session_state) (l : gmap string pd.xlsx) : outcome unit * app :=
  main d timestamp ev {| session := s; logs := l; screen := [] |}.

(** An interaction: the execution triggered by the event, then the
    executions that [st.rerun()] asks for, which carry no event. *)
Fixpoint interact (reruns : nat) (d : disk) (timestamp : string)
    (ev : ui_event) (s : session_state) (l : gmap string pd.xlsx)
  : outcome unit * app :=
  match run_script d timestamp ev s l with
  | (Rerun, st') =>
      match reruns with
      | 0 => (Rerun, st')
      | S n => interact n d timestamp NoEvent (session st') (logs st')
      end
  | r => r
  end.

(** ** Notions used by the statements *)

(** The reports that [username] has to rate (lines 152-153). *)
Definition pool_of (d : disk) (username : string) : list (gmap string string) :=
  load_all_reports (data_files d)
    (Some (get_report_file_for_user (mapping_file d) username)).

(** The [rating_id]s that occur in a list of reports. *)
Definition rating_ids (reports : list (gmap string string)) : list string :=
  omap (λ r, r !! "rating_id") reports.

(** The cell of [row] under the column called [c], when there is one. *)
Definition field (log_df : pd.DataFrame) (row : list string) (c : string)
  : option string :=
  i ← pd.get_loc c (pd.columns log_df); Some (pd.cell i row).


(** A report counts as rated when it has a [rating_id] and that
    identifier is in the rated set. *)
Definition is_rated (rated_reports : gset string) (r : gmap string string)
  : Prop :=
  ∃ i, r !! "rating_id" = Some i ∧ i ∈ rated_reports.




(** ** A small deployment, for the examples *)

Module demo.

Definition report (i : string) : gmap string string :=
  {[ "rating_id" := i; "report_to_rate" := "Findings" ]}.

(** Two pools; alice is assigned to the first, nobody to the second. *)
Definition files : disk :=
  {| users_file :=
       Some [ {| row_username := "root"; row_password := "toor";
                 row_is_admin := Some true |};
              {| row_username := "alice"; row_password := "wonder";
                 row_is_admin := Some false |} ];
     mapping_file := Some [("a.jsonl", ["alice"]); ("b.jsonl", [])];
     data_files :=
       {[ "a.jsonl" := [report "r1"; report "r2"; report "r3"];
          "b.jsonl" := [] ]} |}.

(** The same users with no mapping and no report file at all. *)
Definition bare : disk :=
  {| users_file := users_file files; mapping_file := None;
     data_files := ∅ |}.

Definition alice (p : string) (sel : option string) : session_state :=
  {| logged_in := true; page := p; username := Some "alice";
     is_admin := Some false; selected_report_id := sel |}.

Definition root (p : string) : session_state :=
  {| logged_in := true; page := p; username := Some "root";
     is_admin := Some true; selected_report_id := None |}.

Definition submit (ts rid : string) : list string :=
  [ts; "alice"; "Submit Rating"; rid; "No error"; ""].

(** A log of alice as it is read: a login and a rating of r1. *)
Definition log1 : gmap string pd.xlsx :=
  {[ "alice" :=
       pd.Workbook
         {| pd.columns := LOG_COLUMNS;
            pd.rows := [["t0"; "alice"; "Login Success"; ""; ""; ""];
                        submit "t1" "r1"] |} ]}.


(** A log of alice with ratings of r4 and r5, which her pool lacks. *)
Definition stale_log : gmap string pd.xlsx :=
  {[ "alice" :=
       pd.Workbook
         {| pd.columns := LOG_COLUMNS;
            pd.rows := [submit "t1" "r4"; submit "t2" "r5";
                        submit "t3" "r1"; submit "t4" "r2"] |} ]}.


(** A log file of alice that is not a spreadsheet. *)
Definition broken_log : gmap string pd.xlsx := {[ "alice" := pd.Garbage ]}.


(** A spreadsheet of alice without the column [Action]. *)
Definition headless_log : gmap string pd.xlsx :=
  {[ "alice" :=
       pd.Workbook
         {| pd.columns := ["Report ID"; "Rating"];
            pd.rows := [["r1"; "No error"]] |} ]}.

End demo.

(** ** Notions used by the further properties *)

(** A sequence of interactions of one session, each with its clock reading
    and its event; what is drawn is dropped, the session state and the logs
    directory are carried on, also after an exception. *)
Fixpoint replay (d : disk) (evs : list (string * ui_event))
    (s : session_state) (l : gmap string pd.xlsx)
  : session_state * gmap string pd.xlsx :=
  match evs with
  | [] => (s, l)
  | (ts, ev) :: evs' =>
      let st' := (interact 2 d ts ev s l).2 in
      replay d evs' (session st') (logs st')
  end.

(** Every report of every report file has a [rating_id]. *)
Definition pools_have_ids (d : disk) : Prop :=
  ∀ p reports r,
    data_files d !! p = Some reports → r ∈ reports →
    is_Some (r !! "rating_id").

(** The attributes that a page reads are there: a logged-in session has a
    [username], and on the page "rating" a [selected_report_id]. *)
Definition attributes_present (s : session_state) : Prop :=
  logged_in s = true →
  is_Some (username s)
  ∧ (page s = "rating" → is_Some (selected_report_id s)).

(** ** A pool with a report that has no [rating_id], for the examples *)

Module flawed.

Definition files : disk :=
  {| users_file := users_file demo.files;
     mapping_file := None;
     data_files :=
       {[ DEFAULT_REPORT_FILE :=
            [demo.report "r1"; {[ "report_to_rate" := "Findings" ]}] ]} |}.

End flawed.

(** * Properties *)

(** Unfolding of the script monad. *)
Ltac script_unfold :=
  unfold run_script, main, draw_login_page, draw_progress_page,
    draw_rating_page, draw_admin_page, login_failed, progress_bar,
    rated_reports_of, log_action, getattr, subscript, get_session,
    modify_session, draw, st_rerun, raise,
    mbind, script_bind, mret, script_ret in *.

(** ** The pandas fragment *)

Section frames.

Implicit Types (l seen : list string) (rs : list (list string)).






End frames.

(** ** The action log *)

Section action_log.

Implicit Types (logs : gmap string pd.xlsx) (log_df : pd.DataFrame).









Lemma log_action_frame_new new_entry :
  log_action_frame None new_entry = inr new_entry.
Proof. done. Qed.



Lemma log_action_frame_garbage new_entry :
  log_action_frame (Some pd.Garbage) new_entry = inl BadWorkbook.
Proof. done. Qed.

(** On a log file that [read_excel] cannot open, [log_action] writes
    nothing and shows the exception in the sidebar. *)
Lemma log_action_unreadable (st : app) ts u a rid rt c :
  logs st !! u = Some pd.Garbage →
  log_action ts u a rid rt c st
  = (Done (),
     {| session := session st; logs := logs st;
        screen := screen st ++ [st_sidebar_error BadWorkbook] |}).
Proof.
  intros Hu. unfold log_action, log_action_files. by rewrite Hu.
Qed.




End action_log.

(** ** The progress page on a log that cannot be read *)

Section unreadable_log.
Lemma progress_page_without_log d ts s logs u :
  logged_in s = true → page s = "progress" → username s = Some u →
  logs !! u = None ∨ logs !! u = Some pd.Garbage →
  run_script d ts NoEvent s logs
  = (Done (), {| session := s; logs := logs;
                 screen := [st_title "Your Progress";
                            st_progress 0 (length (pool_of d u));
                            st_markdown 0 (length (pool_of d u))] |}).
Proof.
  intros Hl Hp Hu Hlog.
  assert (get_rated_reports logs u = ∅) as Hr.
  { unfold get_rated_reports. by destruct Hlog as [-> | ->]. }
  script_unfold. simpl. rewrite Hl, Hp. simpl. rewrite Hu. simpl. rewrite Hr.
  unfold pool_of, load_all_reports. rewrite size_empty.
  rewrite decide_True by (right; lia). done.
Qed.
End unreadable_log.

(** ** Selection of the next report *)

Section selection.

Implicit Types (all_reports : list (gmap string string))
               (rated : gset string).

Lemma unrated_false rated r : unrated rated r = false ↔ is_rated rated r.
Proof.
  unfold unrated, is_rated. destruct (r !! "rating_id") as [i|].
  - rewrite bool_decide_eq_false. split.
    + intros Hi. exists i. split; [done|]. by apply dec_stable.
    + intros (j & [= <-] & Hj) Hn. by apply Hn.
  - split; [done|]. by intros (? & [=] & _).
Qed.

Lemma unrated_true rated r : unrated rated r = true ↔ ¬ is_rated rated r.
Proof.
  rewrite <- unrated_false. destruct (unrated rated r); naive_solver.
Qed.

Lemma reports_to_rate_nil all_reports rated :
  reports_to_rate all_reports rated = []
  ↔ Forall (is_rated rated) all_reports.
Proof.
  unfold reports_to_rate.
  induction all_reports as [|r rs IH]; simpl.
  - split; [constructor|done].
  - destruct (unrated rated r) eqn:Hr.
    + split; [done|]. intros [Hr' _]%Forall_cons.
      by apply unrated_true in Hr.
    + rewrite IH, Forall_cons. apply unrated_false in Hr. naive_solver.
Qed.

(** The head of [reports_to_rate] is the first report that is not rated. *)
Lemma reports_to_rate_cons all_reports rated r rest :
  reports_to_rate all_reports rated = r :: rest →
  ∃ pre post, all_reports = pre ++ r :: post
              ∧ Forall (is_rated rated) pre ∧ ¬ is_rated rated r.
Proof.
  unfold reports_to_rate. revert r rest.
  induction all_reports as [|r0 rs IH]; simpl; intros r rest; [done|].
  destruct (unrated rated r0) eqn:Hr.
  - intros [= -> <-]. exists [], rs. apply unrated_true in Hr.
    repeat split; [constructor|done].
  - intros (pre & post & -> & Hpre & Hn)%IH.
    exists (r0 :: pre), post. apply unrated_false in Hr.
    repeat split; [by constructor|done].
Qed.

Lemma reports_to_rate_first pre r post rated :
  Forall (is_rated rated) pre → ¬ is_rated rated r →
  ∃ rest, reports_to_rate (pre ++ r :: post) rated = r :: rest.
Proof.
  intros Hpre Hr. unfold reports_to_rate. rewrite List.filter_app.
  apply reports_to_rate_nil in Hpre. unfold reports_to_rate in Hpre.
  rewrite Hpre. simpl. apply unrated_true in Hr. rewrite Hr. eauto.
Qed.

Lemma next_unrated_Next all_reports rated i :
  next_unrated all_reports rated = Next i
  ↔ ∃ pre r post,
      all_reports = pre ++ r :: post
      ∧ Forall (is_rated rated) pre
      ∧ r !! "rating_id" = Some i ∧ i ∉ rated.
Proof.
  unfold next_unrated. split.
  - destruct (reports_to_rate all_reports rated) as [|r rest] eqn:Hf;
      [done|].
    destruct (r !! "rating_id") as [j|] eqn:Hj; [|done].
    intros [= ->].
    apply reports_to_rate_cons in Hf as (pre & post & -> & Hpre & Hn).
    exists pre, r, post. repeat split; [done..|].
    intros Hi. apply Hn. by exists i.
  - intros (pre & r & post & -> & Hpre & Hi & Hn).
    destruct (reports_to_rate_first pre r post rated Hpre) as [rest ->].
    + intros (j & Hj & ?). congruence.
    + by rewrite Hi.
Qed.

Lemma next_unrated_AllRated all_reports rated :
  next_unrated all_reports rated = AllRated
  ↔ Forall (is_rated rated) all_reports.
Proof.
  rewrite <- reports_to_rate_nil. unfold next_unrated.
  destruct (reports_to_rate all_reports rated) as [|r rest]; [done|].
  destruct (r !! "rating_id"); done.
Qed.

Lemma next_unrated_not_rated all_reports rated i :
  i ∈ rated → next_unrated all_reports rated ≠ Next i.
Proof.
  intros Hi (pre & r & post & _ & _ & _ & Hn)%next_unrated_Next. done.
Qed.

End selection.

(** ** The two places that select a report *)

Section selecting_pages.

Implicit Types (d : disk) (s : session_state) (l : gmap string pd.xlsx).

Lemma start_rating d ts s l u :
  logged_in s = true → page s = "progress" → username s = Some u →
  length (pool_of d u) = 0
    ∨ size (get_rated_reports l u) ≤ length (pool_of d u) →
  let shown := [st_title "Your Progress";
                st_progress (size (get_rated_reports l u))
                            (length (pool_of d u));
                st_markdown (size (get_rated_reports l u))
                            (length (pool_of d u))] in
  run_script d ts ClickStart s l =
    match next_unrated (pool_of d u) (get_rated_reports l u) with
    | Next i =>
        (Rerun,
         {| session := set_selected_report_id (Some i) (set_page "rating" s);
            logs := l; screen := shown |})
    | AllRated =>
        (Done (),
         {| session := s; logs := l;
            screen := shown
              ++ [st_success "You have rated all available reports!"] |})
    | NoRatingId =>
        (Raised (KeyError "rating_id"),
         {| session := set_page "rating" s; logs := l; screen := shown |})
    end.
Proof.
  intros Hl Hp Hu Hbar shown. subst shown.
  unfold next_unrated, pool_of, load_all_reports in *.
  script_unfold. simpl. rewrite Hl, Hp. simpl. rewrite Hu. simpl.
  rewrite decide_True by done. simpl.
  destruct (reports_to_rate _ _) as [|r rest]; simpl; [done|].
  destruct (r !! "rating_id"); done.
Qed.

Lemma submit_rating d ts s l u sel report r c :
  logged_in s = true → page s = "rating" → username s = Some u →
  selected_report_id s = Some sel →
  get_report_by_id (data_files d) sel
    (get_report_file_for_user (mapping_file d) u) = Some report →
  let l' := (log_action_files l ts u "Submit Rating" sel
               (rating_label r) c).1 in
  let res := run_script d ts (ClickSubmit r c) s l in
  logs res.2 = l'
  ∧ match next_unrated (pool_of d u)
            (get_rated_reports l' u ∪ {[sel]}) with
    | Next i =>
        res.1 = Rerun
        ∧ session res.2 = set_selected_report_id (Some i) s
    | AllRated =>
        res.1 = Rerun
        ∧ session res.2
          = set_selected_report_id None (set_page "progress" s)
    | NoRatingId =>
        res.1 = Raised (KeyError "rating_id") ∧ session res.2 = s
    end.
Proof.
  intros Hl Hp Hu Hsel Hrep l' res. subst l' res.
  unfold next_unrated, pool_of in *.
  script_unfold. simpl. rewrite Hl, Hp. simpl. rewrite Hsel. simpl.
  rewrite Hu. simpl. rewrite Hrep. simpl.
  destruct (log_action_files _ _ _ _ _ _ _) as [l' [e|]]; simpl.
  all: destruct (reports_to_rate _ _) as [|r' rest]; simpl; [done|].
  all: destruct (r' !! "rating_id"); done.
Qed.

(** Pressing the start button writes nothing to the logs directory. *)
Lemma start_keeps_logs d ts s l :
  logs (run_script d ts ClickStart s l).2 = l.
Proof.
  script_unfold. simpl.
  repeat (case_match; simpl in *; simplify_eq); done.
Qed.

End selecting_pages.

(** ** Reports and their identifiers *)

Section log_evolution.

Implicit Types (d : disk) (l : gmap string pd.xlsx).

Lemma find_report_Some rid reports report :
  find_report rid reports = Some report →
  report ∈ reports ∧ report !! "rating_id" = Some rid.
Proof.
  induction reports as [|r0 rs IH]; simpl; [done|].
  case_decide as Hr0.
  - intros [= <-]. split; [left|done].
  - intros [? ?]%IH. split; [by right|done].
Qed.

Lemma elem_of_rating_ids reports i :
  i ∈ rating_ids reports
  ↔ ∃ r, r ∈ reports ∧ r !! "rating_id" = Some i.
Proof. unfold rating_ids. by rewrite list_elem_of_omap. Qed.

Lemma length_rating_ids reports :
  length (rating_ids reports) ≤ length reports.
Proof.
  unfold rating_ids. induction reports as [|r rs IH]; csimpl; [done|].
  destruct (r !! "rating_id"); csimpl; lia.
Qed.

Lemma size_list_to_set_le (ids : list string) :
  size (list_to_set ids : gset string) ≤ length ids.
Proof.
  induction ids as [|i ids IH].
  - done.
  - rewrite list_to_set_cons, size_union_alt, size_singleton. simpl.
    assert (size (list_to_set ids ∖ {[i]} : gset string)
            ≤ size (list_to_set ids : gset string)) as Hle
      by (apply subseteq_size; set_solver).
    lia.
Qed.

End log_evolution.

(** ** The router *)

Section router.

Implicit Types (d : disk) (s : session_state) (l : gmap string pd.xlsx).

Lemma admin_flag_false s : is_admin s ≠ Some true → admin_flag s = false.
Proof. unfold admin_flag. by destruct (is_admin s) as [[]|]. Qed.

Lemma not_admin_not_drawn d ts ev s l :
  is_admin s ≠ Some true →
  st_title "Admin Page" ∉ screen (run_script d ts ev s l).2.
Proof.
  intros Hflag%admin_flag_false. script_unfold. simpl.
  rewrite Hflag, andb_false_r.
  repeat (case_match; simpl in *; simplify_eq);
    simpl; rewrite ?elem_of_app, ?elem_of_cons, ?elem_of_nil;
    naive_solver.
Qed.

Lemma not_admin_refused d ts ev s l :
  is_admin s ≠ Some true → logged_in s = true → page s = "admin" →
  run_script d ts ev s l
  = (Rerun, {| session := set_page "progress" s; logs := l; screen := [] |}).
Proof.
  intros Hflag%admin_flag_false Hl Hp. script_unfold. simpl.
  by rewrite Hl, Hp, Hflag.
Qed.

(** The router hands an admin session on the page "admin" to the admin
    page, which draws its title first. *)
Lemma admin_granted d ts ev s l :
  is_admin s = Some true → logged_in s = true → page s = "admin" →
  head (screen (run_script d ts ev s l).2) = Some (st_title "Admin Page").
Proof.
  intros Hflag Hl Hp. script_unfold. unfold admin_flag. simpl.
  rewrite Hl, Hp, Hflag. simpl. by destruct ev.
Qed.

(** No execution of the script moves a session to the page "admin". *)
Lemma admin_not_entered d ts ev s l :
  page s ≠ "admin" → page (session (run_script d ts ev s l).2) ≠ "admin".
Proof.
  intros Hp. script_unfold. simpl.
  repeat (case_match; simpl in *; simplify_eq); done.
Qed.

Lemma progress_page_settles d ts s l :
  logged_in s = true → page s = "progress" →
  ∃ o st', run_script d ts NoEvent s l = (o, st')
           ∧ o ≠ Rerun ∧ session st' = s ∧ logs st' = l
           ∧ head (screen st') = Some (st_title "Your Progress").
Proof.
  intros Hl Hp. script_unfold. simpl. rewrite Hl, Hp. simpl.
  repeat (case_match; simpl in *; simplify_eq); eauto 10.
Qed.

(** An execution without event that asks for another one has routed the
    session to the progress page. *)
Lemma rerun_without_event d ts s l st' :
  run_script d ts NoEvent s l = (Rerun, st') →
  logged_in (session st') = true ∧ page (session st') = "progress".
Proof.
  script_unfold. simpl.
  repeat (case_match; simpl in *; simplify_eq);
    intros; simplify_eq; simpl; try done.
  all: by destruct (logged_in s).
Qed.

(** Two reruns are enough for any interaction to come to rest. *)
Lemma interact_settles d ts ev s l : (interact 2 d ts ev s l).1 ≠ Rerun.
Proof.
  simpl.
  destruct (run_script d ts ev s l) as [[?| |?] st1] eqn:H1; simpl; try done.
  destruct (run_script d ts NoEvent (session st1) (logs st1))
    as [[?| |?] st2] eqn:H2; simpl; try done.
  apply rerun_without_event in H2 as [Hl Hp].
  destruct (progress_page_settles d ts (session st2) (logs st2) Hl Hp)
    as (o & st3 & -> & Ho & _). by destruct o.
Qed.

End router.

(** ** The login page *)

Section login.

Implicit Types (d : disk) (s : session_state) (l : gmap string pd.xlsx).

Lemma login_success d ts s l users u p row rest :
  logged_in s = false → users_file d = Some users →
  user_record users u = row :: rest → row_password row = p →
  run_script d ts (LoginSubmit u p) s l
  = (Rerun,
     {| session :=
          {| logged_in := true; page := "progress"; username := Some u;
             is_admin := Some (default false (row_is_admin row));
             selected_report_id := selected_report_id s |};
        logs := (log_action_files l ts u "Login Success" "" "" "").1;
        screen :=
          st_title "MetaRate Login"
          :: match (log_action_files l ts u "Login Success" "" "" "").2 with
             | Some e => [st_sidebar_error e]
             | None => []
             end |}).
Proof.
  intros Hl Hf Hrec Hp. script_unfold. unfold load_users. simpl.
  rewrite Hl, Hf. simpl. rewrite Hrec.
  rewrite decide_True by done. simpl.
  by destruct (log_action_files _ _ _ _ _ _ _) as [l' [e|]].
Qed.



End login.

(** * The claims *)

(** C1. The report selected next is the first report of the pool, in file
    order, that is not rated; nothing is selected exactly when every report
    of the pool is rated.  Both places that select use this function: the
    start button of the progress page (once the page has drawn its progress
    bar), where "nothing left" reports completion and leaves the session on
    the progress page, and the submit button of the rating page.  Selecting
    writes nothing to the logs, so a second selection right after the first
    gives the same report. *)
Theorem next_unrated_first_unrated :
  (∀ all_reports rated i,
     next_unrated all_reports rated = Next i
     ↔ ∃ pre r post,
         all_reports = pre ++ r :: post
         ∧ Forall (is_rated rated) pre
         ∧ r !! "rating_id" = Some i ∧ i ∉ rated)
  ∧ (∀ all_reports rated,
       next_unrated all_reports rated = AllRated
       ↔ Forall (is_rated rated) all_reports)
  ∧ (∀ d ts s l u,
       logged_in s = true → page s = "progress" → username s = Some u →
       length (pool_of d u) = 0
         ∨ size (get_rated_reports l u) ≤ length (pool_of d u) →
       let shown := [st_title "Your Progress";
                     st_progress (size (get_rated_reports l u))
                                 (length (pool_of d u));
                     st_markdown (size (get_rated_reports l u))
                                 (length (pool_of d u))] in
       run_script d ts ClickStart s l =
         match next_unrated (pool_of d u) (get_rated_reports l u) with
         | Next i =>
             (Rerun,
              {| session :=
                   set_selected_report_id (Some i) (set_page "rating" s);
                 logs := l; screen := shown |})
         | AllRated =>
             (Done (),
              {| session := s; logs := l;
                 screen := shown
                   ++ [st_success "You have rated all available reports!"] |})
         | NoRatingId =>
             (Raised (KeyError "rating_id"),
              {| session := set_page "rating" s; logs := l;
                 screen := shown |})
         end)
  ∧ (∀ d ts s l u sel report r c,
       logged_in s = true → page s = "rating" → username s = Some u →
       selected_report_id s = Some sel →
       get_report_by_id (data_files d) sel
         (get_report_file_for_user (mapping_file d) u) = Some report →
       let l' := (log_action_files l ts u "Submit Rating" sel
                    (rating_label r) c).1 in
       let res := run_script d ts (ClickSubmit r c) s l in
       logs res.2 = l'
       ∧ match next_unrated (pool_of d u)
                 (get_rated_reports l' u ∪ {[sel]}) with
         | Next i =>
             res.1 = Rerun
             ∧ session res.2 = set_selected_report_id (Some i) s
         | AllRated =>
             res.1 = Rerun
             ∧ session res.2
               = set_selected_report_id None (set_page "progress" s)
         | NoRatingId =>
             res.1 = Raised (KeyError "rating_id") ∧ session res.2 = s
         end)
  ∧ (∀ d ts s l u,
       let l' := logs (run_script d ts ClickStart s l).2 in
       l' = l
       ∧ next_unrated (pool_of d u) (get_rated_reports l' u)
         = next_unrated (pool_of d u) (get_rated_reports l u)).
Proof.
  split; [exact next_unrated_Next|].
  split; [exact next_unrated_AllRated|].
  split; [exact start_rating|].
  split; [exact submit_rating|].
  intros d ts s l u l'. subst l'. by rewrite start_keeps_logs.
Qed.

Lemma next_unrated_first_unrated_witness :
  run_script demo.files "t2" ClickStart (demo.alice "progress" None) demo.log1
  = (Rerun,
     {| session := demo.alice "rating" (Some "r2"); logs := demo.log1;
        screen := [st_title "Your Progress"; st_progress 1 3;
                   st_markdown 1 3] |})
  ∧ session (run_script demo.files "t3" (ClickSubmit OtherError "")
               (demo.alice "rating" (Some "r2")) demo.log1).2
    = demo.alice "rating" (Some "r3").
Proof.
  destruct next_unrated_first_unrated as (_ & _ & Hstart & Hsubmit & _).
  split.
  - rewrite (Hstart demo.files "t2" (demo.alice "progress" None) demo.log1
               "alice").
    + reflexivity.
    + reflexivity.
    + reflexivity.
    + reflexivity.
    + right. vm_compute. lia.
  - destruct (Hsubmit demo.files "t3" (demo.alice "rating" (Some "r2"))
                demo.log1 "alice" "r2" (demo.report "r2") OtherError "")
      as [_ Hnext]; [reflexivity..|].
    vm_compute in Hnext. destruct Hnext as [_ Hnext]. exact Hnext.
Defined.






(** C4, as amended.  The rated count is at most the total whenever every
    rated identifier of the user is the [rating_id] of a report of the
    user's pool. *)
Theorem rated_count_le_total_within_pool d l u :
  (∀ r, r ∈ get_rated_reports l u → r ∈ rating_ids (pool_of d u)) →
  size (get_rated_reports l u) ≤ length (pool_of d u).
Proof.
  intros Hin.
  etrans; [|apply length_rating_ids].
  etrans; [|apply size_list_to_set_le].
  apply subseteq_size. intros r Hr. apply elem_of_list_to_set. auto.
Qed.

Lemma rated_count_le_total_within_pool_witness :
  size (get_rated_reports demo.log1 "alice")
  ≤ length (pool_of demo.files "alice").
Proof.
  apply (rated_count_le_total_within_pool demo.files demo.log1 "alice").
  intros r Hr.
  assert (get_rated_reports demo.log1 "alice" = {["r1"]}) as Heq
    by (vm_compute; reflexivity).
  rewrite Heq in Hr. apply elem_of_singleton in Hr as ->.
  vm_compute. left.
Defined.

(** C4 as stated fails: a log holds whatever was rated under an earlier
    assignment.  With four rated reports of which the pool of three has
    two, the count is 4 against a total of 3; and when the report file is
    missing the progress page shows one rated report out of none. *)
Lemma rated_count_exceeds_total :
  size (get_rated_reports demo.stale_log "alice") = 4
  ∧ length (pool_of demo.files "alice") = 3
  ∧ ¬ (size (get_rated_reports demo.stale_log "alice")
       ≤ length (pool_of demo.files "alice"))
  ∧ run_script demo.bare "t2" NoEvent (demo.alice "progress" None) demo.log1
    = (Done (),
       {| session := demo.alice "progress" None; logs := demo.log1;
          screen := [st_title "Your Progress"; st_progress 1 0;
                     st_markdown 1 0] |}).
Proof. vm_compute. repeat split; try done. lia. Qed.

(** C5. Resolution of a username to a report file is a total function of
    the mapping file and the username: without a mapping file it is the
    default file; with one, it is the first pool in mapping order whose
    users contain the username, and the default file when no pool does. *)
Theorem get_report_file_for_user_first_match username :
  get_report_file_for_user None username = DEFAULT_REPORT_FILE
  ∧ (∀ mapping,
       Forall (λ item, username ∉ item.2) mapping →
       get_report_file_for_user (Some mapping) username
       = DEFAULT_REPORT_FILE)
  ∧ (∀ pre report_file users post,
       Forall (λ item, username ∉ item.2) pre →
       username ∈ users →
       get_report_file_for_user
         (Some (pre ++ (report_file, users) :: post)) username
       = report_file)
  ∧ (∀ mapping_file,
       get_report_file_for_user mapping_file username = DEFAULT_REPORT_FILE
       ∨ ∃ mapping users,
           mapping_file = Some mapping
           ∧ (get_report_file_for_user mapping_file username, users)
               ∈ mapping
           ∧ username ∈ users).
Proof.
  split; [done|]. split; [|split].
  - intros mapping Hall. simpl.
    induction Hall as [|[report_file users] rest Hn _ IH]; simpl; [done|].
    by rewrite decide_False.
  - intros pre report_file users post Hall Hin. simpl.
    induction Hall as [|[report_file' users'] rest Hn _ IH]; simpl.
    + by rewrite decide_True.
    + by rewrite decide_False.
  - intros [mapping|]; [|by left]. simpl.
    induction mapping as [|[report_file users] rest IH]; simpl; [by left|].
    case_decide as Hin.
    + right. exists ((report_file, users) :: rest), users.
      repeat split; [left|done].
    + destruct IH as [IH|(? & users' & [= <-] & Hm & Hu)]; [by left|].
      right. exists ((report_file, users) :: rest), users'.
      repeat split; [by right|done].
Qed.

Lemma get_report_file_for_user_first_match_witness :
  get_report_file_for_user
    (Some ([("a.jsonl", ["alice"])] ++ ("b.jsonl", ["bob"; "carol"])
           :: [("c.jsonl", ["bob"])])) "bob"
  = "b.jsonl".
Proof.
  destruct (get_report_file_for_user_first_match "bob")
    as (_ & _ & Hfirst & _).
  apply Hfirst.
  - constructor; [|constructor]. simpl.
    apply not_elem_of_cons. split; [discriminate|apply not_elem_of_nil].
  - left.
Defined.




(** C7. A session whose [is_admin] is not true never has the admin page
    drawn, whatever the event; when it is logged in with the page set to
    "admin", the router draws nothing, raises nothing, sets the page to
    "progress" and reruns, and the rerun draws the progress page.  No
    execution moves a session to the page "admin".  A logged-in session
    whose [is_admin] is true and whose page is "admin" is let in: the
    router calls the admin page, whose title is the first thing drawn. *)
Theorem admin_page_fail_closed d ts ev s l :
  (is_admin s ≠ Some true →
   (st_title "Admin Page" ∉ screen (run_script d ts ev s l).2)
   ∧ (logged_in s = true → page s = "admin" →
      run_script d ts ev s l
      = (Rerun,
         {| session := set_page "progress" s; logs := l; screen := [] |})
      ∧ ∃ o st',
          interact 1 d ts ev s l = (o, st')
          ∧ o ≠ Rerun
          ∧ session st' = set_page "progress" s ∧ logs st' = l
          ∧ head (screen st') = Some (st_title "Your Progress")))
  ∧ (page s ≠ "admin" →
     page (session (run_script d ts ev s l).2) ≠ "admin")
  ∧ (is_admin s = Some true → logged_in s = true → page s = "admin" →
     head (screen (run_script d ts ev s l).2)
     = Some (st_title "Admin Page")).
Proof.
  split; [|split].
  - intros Hflag. split; [by apply not_admin_not_drawn|].
    intros Hl Hp. split; [by apply not_admin_refused|].
    simpl. rewrite not_admin_refused by done. simpl.
    destruct (progress_page_settles d ts (set_page "progress" s) l)
      as (o & st' & -> & Ho & Hrest); [done..|].
    exists o, st'. by destruct o.
  - apply admin_not_entered.
  - apply admin_granted.
Qed.

Lemma admin_page_fail_closed_witness :
  run_script demo.files "t1" NoEvent (demo.alice "admin" None) demo.log1
  = (Rerun, {| session := demo.alice "progress" None; logs := demo.log1;
               screen := [] |})
  ∧ page (session (run_script demo.files "t1" ClickStart
                     (demo.alice "progress" None) demo.log1).2) ≠ "admin"
  ∧ head (screen (run_script demo.files "t1" NoEvent (demo.root "admin")
                    demo.log1).2)
    = Some (st_title "Admin Page").
Proof.
  split; [|split].
  - destruct (admin_page_fail_closed demo.files "t1" NoEvent
                (demo.alice "admin" None) demo.log1) as [Hno _].
    destruct Hno as [_ Hrefused]; [by vm_compute|].
    destruct Hrefused as [Hrun _]; [reflexivity..|]. exact Hrun.
  - destruct (admin_page_fail_closed demo.files "t1" ClickStart
                (demo.alice "progress" None) demo.log1) as (_ & Hstay & _).
    apply Hstay. by vm_compute.
  - destruct (admin_page_fail_closed demo.files "t1" NoEvent
                (demo.root "admin") demo.log1) as (_ & _ & Hyes).
    apply Hyes; reflexivity.
Defined.

(** C8, as amended.  Loading a report file that does not exist does not
    fail: it returns the empty list, the value that loading an existing
    file without lines returns.  The empty list is therefore returned in
    both cases, and in no other. *)
Theorem load_reports_missing_or_empty data file_path :
  (data !! file_path = None → load_reports data file_path = [])
  ∧ (data !! file_path = Some [] → load_reports data file_path = [])
  ∧ (load_reports data file_path = []
     ↔ data !! file_path = None ∨ data !! file_path = Some []).
Proof.
  assert (∀ lines acc : list (gmap string string),
            foldl (λ reports line, reports ++ [line]) acc lines
            = acc ++ lines) as Hloop.
  { induction lines as [|line lines IH]; intros acc; simpl.
    - by rewrite app_nil_r.
    - by rewrite IH, <- app_assoc. }
  unfold load_reports.
  destruct (data !! file_path) as [lines|]; rewrite ?Hloop; simpl.
  - split; [done|]. split; [by intros [= ->]|]. naive_solver.
  - split; [done|]. split; [done|]. naive_solver.
Qed.

Lemma load_reports_missing_or_empty_witness :
  load_reports (data_files demo.files) "z.jsonl" = []
  ∧ load_reports (data_files demo.files) "b.jsonl" = [].
Proof.
  split.
  - destruct (load_reports_missing_or_empty (data_files demo.files)
                "z.jsonl") as (Hnone & _).
    apply Hnone. reflexivity.
  - destruct (load_reports_missing_or_empty (data_files demo.files)
                "b.jsonl") as (_ & Hempty & _).
    apply Hempty. reflexivity.
Defined.

(** C8 as stated fails: loading a report file that does not exist does not
    fail, it returns the empty list, and so does loading an existing file
    without lines; the caller cannot tell the two apart. *)
Lemma load_reports_missing_is_empty :
  data_files demo.files !! "z.jsonl" = None
  ∧ data_files demo.files !! "b.jsonl" = Some []
  ∧ load_reports (data_files demo.files) "z.jsonl" = []
  ∧ load_reports (data_files demo.files) "z.jsonl"
    = load_reports (data_files demo.files) "b.jsonl".
Proof. repeat split; reflexivity. Qed.




(** The same holds of a successful attempt when the log file of the user
    cannot be read: the session moves to the progress page and the log is
    left as it was. *)
Example login_success_on_unreadable_log_not_logged :
  run_script demo.files "t0" (LoginSubmit "alice" "wonder") fresh_session
    demo.broken_log
  = (Rerun,
     {| session := demo.alice "progress" None; logs := demo.broken_log;
        screen := [st_title "MetaRate Login";
                   st_sidebar_error BadWorkbook] |}).
Proof. reflexivity. Qed.

(** C10. Computing the rated set never fails: it is the empty set when the
    log file does not exist, when [read_excel] raises on it, and when the
    frame lacks a column that the computation reads.  With such a log the
    progress page is drawn with zero rated reports. *)
Theorem get_rated_reports_never_fails l u :
  (l !! u = None → get_rated_reports l u = ∅)
  ∧ (∀ f e, l !! u = Some f → pd.read_excel f = inl e →
            get_rated_reports l u = ∅)
  ∧ (∀ f log_df e, l !! u = Some f → pd.read_excel f = inr log_df →
                   submitted_ids log_df = inl e →
                   get_rated_reports l u = ∅)
  ∧ (∀ d ts s,
       logged_in s = true → page s = "progress" → username s = Some u →
       l !! u = None ∨ l !! u = Some pd.Garbage →
       run_script d ts NoEvent s l
       = (Done (),
          {| session := s; logs := l;
             screen := [st_title "Your Progress";
                        st_progress 0 (length (pool_of d u));
                        st_markdown 0 (length (pool_of d u))] |})).
Proof.
  unfold get_rated_reports. repeat split.
  - by intros ->.
  - by intros f e -> ->.
  - by intros f log_df e -> -> ->.
  - intros d ts s. apply progress_page_without_log.
Qed.

Lemma get_rated_reports_never_fails_witness :
  get_rated_reports demo.broken_log "alice" = ∅
  ∧ get_rated_reports demo.broken_log "bob" = ∅
  ∧ get_rated_reports demo.headless_log "alice" = ∅
  ∧ run_script demo.files "t1" NoEvent (demo.alice "progress" None)
      demo.broken_log
    = (Done (),
       {| session := demo.alice "progress" None; logs := demo.broken_log;
          screen := [st_title "Your Progress"; st_progress 0 3;
                     st_markdown 0 3] |}).
Proof.
  destruct (get_rated_reports_never_fails demo.broken_log "alice")
    as (_ & Hbad & _ & Hpage).
  destruct (get_rated_reports_never_fails demo.broken_log "bob")
    as (Hnone & _).
  destruct (get_rated_reports_never_fails demo.headless_log "alice")
    as (_ & _ & Hcol & _).
  split; [|split; [|split]].
  - apply (Hbad pd.Garbage BadWorkbook); reflexivity.
  - apply Hnone. reflexivity.
  - eapply (Hcol _ _ (KeyError "Action")); reflexivity.
  - rewrite (Hpage demo.files "t1" (demo.alice "progress" None));
      [reflexivity..|right; reflexivity].
Defined.

(** * Further properties of the code *)

Section further.

Implicit Types (d : disk) (s : session_state) (l : gmap string pd.xlsx).

Lemma interact_more k d ts ev s l :
  (interact k d ts ev s l).1 ≠ Rerun →
  interact (S k) d ts ev s l = interact k d ts ev s l.
Proof.
  revert ts ev s l. induction k as [|k IH]; intros ts ev s l; simpl.
  - by destruct (run_script d ts ev s l) as [[?| |?] st'].
  - destruct (run_script d ts ev s l) as [[?| |?] st']; try done.
    intros Hk. by rewrite <- IH.
Qed.

End further.

(** X1. An interaction comes to rest within two reruns, whatever the
    event, the session and the files; allowing more reruns changes
    nothing. *)
Theorem interact_comes_to_rest d ts ev s l n :
  (interact 2 d ts ev s l).1 ≠ Rerun
  ∧ interact (2 + n) d ts ev s l = interact 2 d ts ev s l.
Proof.
  split; [apply interact_settles|].
  induction n as [|n IH]; [done|].
  replace (2 + S n) with (S (2 + n)) by lia.
  rewrite interact_more; [done|]. rewrite IH. apply interact_settles.
Qed.

(** X2. [get_report_by_id] returns the first report of the file, in file
    order, whose [rating_id] is the one asked for, and [None] exactly when
    no report of the file has it, in particular when the file does not
    exist. *)
Theorem get_report_by_id_first_match data rating_id report_file :
  (∀ report,
     get_report_by_id data rating_id report_file = Some report
     ↔ ∃ pre post,
         load_reports data report_file = pre ++ report :: post
         ∧ report !! "rating_id" = Some rating_id
         ∧ Forall (λ r, r !! "rating_id" ≠ Some rating_id) pre)
  ∧ (get_report_by_id data rating_id report_file = None
     ↔ Forall (λ r, r !! "rating_id" ≠ Some rating_id)
              (load_reports data report_file))
  ∧ (data !! report_file = None →
     get_report_by_id data rating_id report_file = None).
Proof.
  unfold get_report_by_id, load_all_reports.
  split; [|split].
  - intros report. generalize (load_reports data report_file) as reports.
    induction reports as [|r0 rs IH]; simpl.
    + split; [done|]. intros (pre & post & Heq & _).
      by destruct pre.
    + case_decide as Hr0.
      * split.
        -- intros [= <-]. exists [], rs. by repeat split.
        -- intros (pre & post & Heq & Hid & Hpre).
           destruct pre as [|r1 pre]; simplify_eq/=; [done|].
           by apply Forall_cons in Hpre as [? _].
      * rewrite IH. split.
        -- intros (pre & post & -> & Hid & Hpre).
           exists (r0 :: pre), post. repeat split; [done|by constructor].
        -- intros (pre & post & Heq & Hid & Hpre).
           destruct pre as [|r1 pre]; simplify_eq/=.
           apply Forall_cons in Hpre as [_ Hpre]. eauto.
  - generalize (load_reports data report_file) as reports.
    induction reports as [|r0 rs IH]; simpl; [done|].
    case_decide as Hr0.
    + split; [done|]. by intros [? _]%Forall_cons.
    + rewrite IH, Forall_cons. naive_solver.
  - intros Hf. unfold load_reports. by rewrite Hf.
Qed.

Lemma get_report_by_id_first_match_witness :
  get_report_by_id (data_files demo.files) "r2" "z.jsonl" = None
  ∧ get_report_by_id (data_files demo.files) "r2" "a.jsonl"
    = Some (demo.report "r2").
Proof.
  destruct (get_report_by_id_first_match (data_files demo.files) "r2"
              "z.jsonl") as (_ & _ & Hmissing).
  destruct (get_report_by_id_first_match (data_files demo.files) "r2"
              "a.jsonl") as (Hsome & _).
  split; [by apply Hmissing|].
  apply Hsome. exists [demo.report "r1"], [demo.report "r3"].
  repeat split; [constructor; [by vm_compute|constructor]].
Defined.

Section executions.

Implicit Types (d : disk) (s : session_state) (l : gmap string pd.xlsx).

Ltac split_script :=
  script_unfold; simpl;
  repeat (case_match; simpl in *; simplify_eq).

Ltac fst_logs :=
  repeat match goal with
  | H : log_action_files ?l ?ts ?u ?a ?rid ?rt ?c = (?l', _) |- _ =>
      is_var l';
      assert (l' = (log_action_files l ts u a rid rt c).1) as ->
        by (by rewrite H);
      clear H
  end.

(** The calls of [log_action] that an execution makes. *)
Lemma one_log_action d ts ev s l :
  logs (run_script d ts ev s l).2 = l
  ∨ (∃ u a rid,
       (a = "Login Success" ∨ a = "Login Fail" ∨ a = "Logout"
        ∨ a = "Back to Progress")
       ∧ ((logged_in s = true ∧ username s = Some u)
          ∨ (logged_in s = false ∧ ∃ p, ev = LoginSubmit u p))
       ∧ logs (run_script d ts ev s l).2
         = (log_action_files l ts u a rid "" "").1)
  ∨ (∃ u sel r c,
       ev = ClickSubmit r c
       ∧ logged_in s = true ∧ page s = "rating" ∧ username s = Some u
       ∧ selected_report_id s = Some sel
       ∧ is_Some (get_report_by_id (data_files d) sel
                    (get_report_file_for_user (mapping_file d) u))
       ∧ logs (run_script d ts ev s l).2
         = (log_action_files l ts u "Submit Rating" sel (rating_label r)
              c).1).
Proof.
  split_script; fst_logs; simpl; try (by left).
  all: destruct (logged_in s) eqn:Hlog; simpl in *; try discriminate.
  all: first
    [ right; right; eexists _, _, _, _;
      repeat split; try reflexivity; try done; by eauto
    | right; left; eexists _, _, _;
      split; [|split; [|reflexivity]];
      [ first [ left; reflexivity
              | right; left; reflexivity
              | right; right; left; reflexivity
              | right; right; right; reflexivity ]
      | first [ left; split; reflexivity
              | right; split; [reflexivity|]; eexists; reflexivity ] ] ].
Qed.

Lemma no_event_no_change d ts s l :
  logs (run_script d ts NoEvent s l).2 = l
  ∧ (session (run_script d ts NoEvent s l).2 = s
     ∨ (run_script d ts NoEvent s l).1 = Rerun
       ∧ session (run_script d ts NoEvent s l).2 = set_page "progress" s).
Proof. split_script; eauto. Qed.

End executions.

Section more_pages.

Implicit Types (d : disk) (s : session_state) (l : gmap string pd.xlsx).

Lemma load_reports_lines data p lines :
  data !! p = Some lines → load_reports data p = lines.
Proof.
  intros Hp. unfold load_reports. rewrite Hp.
  assert (∀ (ls acc : list (gmap string string)),
            foldl (λ reports line, reports ++ [line]) acc ls = acc ++ ls)
    as Hloop.
  { induction ls as [|x ls IH]; intros acc; simpl.
    - by rewrite app_nil_r.
    - by rewrite IH, <- app_assoc. }
  by rewrite Hloop.
Qed.

Lemma pool_has_ids d u r :
  pools_have_ids d → r ∈ pool_of d u → is_Some (r !! "rating_id").
Proof.
  intros Hids. unfold pool_of, load_all_reports.
  destruct (data_files d !! get_report_file_for_user (mapping_file d) u)
    as [lines|] eqn:Hp.
  - rewrite (load_reports_lines _ _ _ Hp). by eapply Hids.
  - unfold load_reports. rewrite Hp. by intros ?%elem_of_nil.
Qed.

Lemma reports_to_rate_head_in all_reports rated r rest :
  reports_to_rate all_reports rated = r :: rest → r ∈ all_reports.
Proof.
  intros (pre & post & -> & _)%reports_to_rate_cons.
  apply elem_of_app. right. left.
Qed.

Lemma logout d ts s l u :
  logged_in s = true → page s = "progress" → username s = Some u →
  (run_script d ts ClickLogout s l).1 = Rerun
  ∧ session (run_script d ts ClickLogout s l).2
    = {| logged_in := false; page := "login"; username := None;
         is_admin := None; selected_report_id := selected_report_id s |}
  ∧ logs (run_script d ts ClickLogout s l).2
    = (log_action_files l ts u "Logout" "" "" "").1.
Proof.
  intros Hl Hp Hu. script_unfold. simpl.
  rewrite Hl, Hp. simpl. rewrite Hu. simpl.
  by destruct (log_action_files _ _ _ _ _ _ _) as [l' [e|]].
Qed.

Lemma login_page_idle d ts s l :
  logged_in s = false →
  (run_script d ts NoEvent s l).1 = Done ()
  ∧ session (run_script d ts NoEvent s l).2 = s
  ∧ logs (run_script d ts NoEvent s l).2 = l
  ∧ head (screen (run_script d ts NoEvent s l).2)
    = Some (st_title "MetaRate Login").
Proof.
  intros Hl. script_unfold. unfold load_users. simpl. rewrite Hl. simpl.
  by destruct (users_file d).
Qed.

Lemma report_not_found d ts ev s l u sel :
  logged_in s = true → page s = "rating" → username s = Some u →
  selected_report_id s = Some sel →
  get_report_by_id (data_files d) sel
    (get_report_file_for_user (mapping_file d) u) = None →
  run_script d ts ev s l
  = (Rerun, {| session := set_page "progress" s; logs := l;
               screen := [st_error "Report not found."] |}).
Proof.
  intros Hl Hp Hu Hsel Hrep. script_unfold. simpl.
  rewrite Hl, Hp. simpl. rewrite Hsel. simpl. rewrite Hu. simpl.
  by rewrite Hrep.
Qed.

Lemma no_selected_report d ts ev s l :
  logged_in s = true → page s = "rating" → selected_report_id s = None →
  run_script d ts ev s l
  = (Raised (AttributeError "selected_report_id"),
     {| session := s; logs := l; screen := [] |}).
Proof.
  intros Hl Hp Hsel. script_unfold. simpl.
  rewrite Hl, Hp. simpl. by rewrite Hsel.
Qed.

(** The state in which an interaction comes to rest, from the state of its
    first execution when that one asks for a rerun. *)
Lemma interact_rerun n d ts ev s l st1 :
  run_script d ts ev s l = (Rerun, st1) →
  interact (S n) d ts ev s l
  = interact n d ts NoEvent (session st1) (logs st1).
Proof. intros Hrun. simpl. by rewrite Hrun. Qed.

Lemma interact_at_rest n d ts ev s l :
  (run_script d ts ev s l).1 ≠ Rerun →
  interact n d ts ev s l = run_script d ts ev s l.
Proof.
  intros Hrun. destruct n; simpl;
    by destruct (run_script d ts ev s l) as [[?| |?] st'].
Qed.

Lemma interact_logout d ts s l u :
  logged_in s = true → page s = "progress" → username s = Some u →
  session (interact 2 d ts ClickLogout s l).2
  = {| logged_in := false; page := "login"; username := None;
       is_admin := None; selected_report_id := selected_report_id s |}
  ∧ logs (interact 2 d ts ClickLogout s l).2
    = (log_action_files l ts u "Logout" "" "" "").1.
Proof.
  intros Hl Hp Hu.
  destruct (logout d ts s l u Hl Hp Hu) as (Ho1 & Hs1 & Hl1).
  destruct (run_script d ts ClickLogout s l) as [o1 st1] eqn:Hrun1.
  simpl in Ho1, Hs1, Hl1. subst o1.
  rewrite (interact_rerun 1 _ _ _ _ _ _ Hrun1).
  destruct (login_page_idle d ts (session st1) (logs st1))
    as (Ho2 & Hs2 & Hl2 & _); [by rewrite Hs1|].
  rewrite (interact_at_rest 1 d ts NoEvent (session st1) (logs st1))
    by (by rewrite Ho2).
  by rewrite Hs2, Hl2.
Qed.

Lemma interact_login d ts s l users u p row rest :
  logged_in s = false → users_file d = Some users →
  user_record users u = row :: rest → row_password row = p →
  session (interact 2 d ts (LoginSubmit u p) s l).2
  = {| logged_in := true; page := "progress"; username := Some u;
       is_admin := Some (default false (row_is_admin row));
       selected_report_id := selected_report_id s |}
  ∧ logs (interact 2 d ts (LoginSubmit u p) s l).2
    = (log_action_files l ts u "Login Success" "" "" "").1.
Proof.
  intros Hl Hf Hrec Hpw.
  pose proof (login_success d ts s l users u p row rest Hl Hf Hrec Hpw)
    as Hrun.
  rewrite (interact_rerun 1 _ _ _ _ _ _ Hrun). cbn [session logs].
  match goal with
  | |- context [interact 1 d ts NoEvent ?s3 ?l3] =>
      destruct (progress_page_settles d ts s3 l3)
        as (o4 & st4 & Hrun4 & Ho4 & Hs4 & Hl4 & _); [done..|];
      rewrite (interact_at_rest 1 d ts NoEvent s3 l3)
        by (by rewrite Hrun4);
      rewrite Hrun4
  end.
  cbn [fst snd]. by rewrite Hs4, Hl4.
Qed.

Lemma attributes_present_run d ts ev s l :
  pools_have_ids d → attributes_present s →
  attributes_present (session (run_script d ts ev s l).2).
Proof.
  intros Hids Hs. unfold attributes_present in *.
  script_unfold. simpl.
  repeat (case_match; simpl in *; simplify_eq).
  all: try match goal with
       | H : reports_to_rate _ _ = ?r :: _, H' : ?r !! "rating_id" = None
         |- _ =>
           apply reports_to_rate_head_in in H;
           eapply (pool_has_ids d) in H; [|done];
           rewrite H' in H; by destruct H
       end.
  all: simpl in *.
  all: destruct (logged_in s) eqn:Hlog; simpl in *; try discriminate.
  all: try (destruct (Hs eq_refl) as [[u0 Hu0] Hsel]).
  all: intros Hlog';
    first [discriminate
          |split; [try (by eauto)
                  |intros Hp'; first [discriminate|try (by eauto)]]].
  all: match goal with
       | Hsel : ?P → is_Some None, e : ?P |- _ =>
           by destruct (Hsel e) as [? [=]]
       end.
Qed.

End more_pages.

(** X3. An execution calls [log_action] at most once, for the user of the
    session when it is logged in and for the username typed into the login
    form when it is not.  The action "Submit Rating" is logged by the
    submit button of the rating page alone, for the selected report, which
    is a report of the pool of the user, with the rating and the comments
    of the form; every other call logs "Login Success", "Login Fail",
    "Logout" or "Back to Progress", without rating and comments. *)
Theorem only_submit_logs_a_rating d ts ev s l :
  logs (run_script d ts ev s l).2 = l
  ∨ (∃ u a rid,
       (a = "Login Success" ∨ a = "Login Fail" ∨ a = "Logout"
        ∨ a = "Back to Progress")
       ∧ ((logged_in s = true ∧ username s = Some u)
          ∨ (logged_in s = false ∧ ∃ p, ev = LoginSubmit u p))
       ∧ logs (run_script d ts ev s l).2
         = (log_action_files l ts u a rid "" "").1)
  ∨ (∃ u sel r c,
       ev = ClickSubmit r c
       ∧ logged_in s = true ∧ page s = "rating" ∧ username s = Some u
       ∧ selected_report_id s = Some sel
       ∧ is_Some (get_report_by_id (data_files d) sel
                    (get_report_file_for_user (mapping_file d) u))
       ∧ logs (run_script d ts ev s l).2
         = (log_action_files l ts u "Submit Rating" sel (rating_label r)
              c).1).
Proof. apply one_log_action. Qed.

(** X5. When the selected report is not in the pool of the user, the rating
    page logs nothing whatever the event, draws the error, sets the page to
    "progress" and reruns, and the interaction ends on the progress page;
    the stale [selected_report_id] stays in the session. *)
Theorem report_not_found_returns_to_progress d ts ev s l u sel :
  logged_in s = true → page s = "rating" → username s = Some u →
  selected_report_id s = Some sel →
  get_report_by_id (data_files d) sel
    (get_report_file_for_user (mapping_file d) u) = None →
  run_script d ts ev s l
  = (Rerun, {| session := set_page "progress" s; logs := l;
               screen := [st_error "Report not found."] |})
  ∧ ∃ o st',
      interact 2 d ts ev s l = (o, st')
      ∧ o ≠ Rerun
      ∧ session st' = set_page "progress" s ∧ logs st' = l
      ∧ selected_report_id (session st') = Some sel
      ∧ head (screen st') = Some (st_title "Your Progress").
Proof.
  intros Hl Hp Hu Hsel Hrep.
  pose proof (report_not_found d ts ev s l u sel Hl Hp Hu Hsel Hrep) as Hrun.
  split; [done|].
  rewrite (interact_rerun 1 _ _ _ _ _ _ Hrun). cbn [session logs].
  destruct (progress_page_settles d ts (set_page "progress" s) l)
    as (o & st' & Hrun' & Ho & Hs & Hlogs & Hscreen); [done..|].
  exists o, st'. rewrite interact_at_rest by (by rewrite Hrun').
  rewrite Hrun'. repeat split; try done. by rewrite Hs.
Qed.

Lemma report_not_found_returns_to_progress_witness :
  run_script demo.files "t2" (ClickSubmit NoError "")
    (demo.alice "rating" (Some "r9")) demo.log1
  = (Rerun, {| session := demo.alice "progress" (Some "r9");
               logs := demo.log1;
               screen := [st_error "Report not found."] |}).
Proof.
  by destruct (report_not_found_returns_to_progress demo.files "t2"
                 (ClickSubmit NoError "") (demo.alice "rating" (Some "r9"))
                 demo.log1 "alice" "r9" eq_refl eq_refl eq_refl eq_refl
                 eq_refl) as [Hrun _].
Defined.

(** X6. An execution without event, such as a reload of the page, writes
    no log and leaves the session as it was, except that the router may
    set the page to "progress" and rerun. *)
Theorem execution_without_event_changes_nothing d ts s l :
  logs (run_script d ts NoEvent s l).2 = l
  ∧ (session (run_script d ts NoEvent s l).2 = s
     ∨ (run_script d ts NoEvent s l).1 = Rerun
       ∧ session (run_script d ts NoEvent s l).2 = set_page "progress" s).
Proof. apply no_event_no_change. Qed.

(** X8. Logging out and logging in again brings the user back to the
    progress page: the two interactions leave the session logged in as the
    same user on the page "progress", with the [selected_report_id] it
    had, which the logout does not delete; they call [log_action] with
    "Logout" and then with "Login Success", for that user. *)
Theorem logout_then_login_resumes d ts1 ts2 s l users u p row rest :
  logged_in s = true → page s = "progress" → username s = Some u →
  users_file d = Some users →
  user_record users u = row :: rest → row_password row = p →
  logged_in (replay d [(ts1, ClickLogout); (ts2, LoginSubmit u p)] s l).1
  = true
  ∧ page (replay d [(ts1, ClickLogout); (ts2, LoginSubmit u p)] s l).1
    = "progress"
  ∧ username (replay d [(ts1, ClickLogout); (ts2, LoginSubmit u p)] s l).1
    = Some u
  ∧ selected_report_id
      (replay d [(ts1, ClickLogout); (ts2, LoginSubmit u p)] s l).1
    = selected_report_id s
  ∧ (replay d [(ts1, ClickLogout); (ts2, LoginSubmit u p)] s l).2
    = (log_action_files (log_action_files l ts1 u "Logout" "" "" "").1
         ts2 u "Login Success" "" "" "").1.
Proof.
  intros Hl Hp Hu Hf Hrec Hpw. cbn [replay].
  destruct (interact_logout d ts1 s l u Hl Hp Hu) as [Hs1 Hl1].
  rewrite Hs1, Hl1.
  match goal with
  | |- context [interact 2 d ts2 (LoginSubmit u p) ?s1 ?l1] =>
      destruct (interact_login d ts2 s1 l1 users u p row rest)
        as [Hs2 Hl2]; [done..|]
  end.
  by rewrite Hs2, Hl2.
Qed.

Lemma logout_then_login_resumes_witness :
  page (replay demo.files [("t2", ClickLogout);
                           ("t3", LoginSubmit "alice" "wonder")]
          (demo.alice "progress" (Some "r2")) demo.log1).1
  = "progress"
  ∧ selected_report_id
      (replay demo.files [("t2", ClickLogout);
                          ("t3", LoginSubmit "alice" "wonder")]
         (demo.alice "progress" (Some "r2")) demo.log1).1
    = Some "r2".
Proof.
  destruct (logout_then_login_resumes demo.files "t2" "t3"
              (demo.alice "progress" (Some "r2")) demo.log1 _ "alice"
              "wonder" _ _ eq_refl eq_refl eq_refl eq_refl eq_refl eq_refl)
    as (_ & Hpage & _ & Hsel & _).
  by split.
Defined.

(** X9. Without the users file nobody logs in: whatever a logged-out
    session does, in any number of interactions, it stays logged out as it
    was and no log is written. *)
Theorem no_login_without_users_file d evs s l :
  users_file d = None → logged_in s = false →
  replay d evs s l = (s, l)
  ∧ ∀ ts ev,
      run_script d ts ev s l
      = (Done (),
         {| session := s; logs := l;
            screen := [st_title "MetaRate Login";
                       st_error "User file not found at users.xlsx"] |}).
Proof.
  intros Hf Hl.
  assert (∀ ts ev,
            run_script d ts ev s l
            = (Done (),
               {| session := s; logs := l;
                  screen := [st_title "MetaRate Login";
                             st_error "User file not found at users.xlsx"]
               |})) as Hrun.
  { intros ts ev. script_unfold. unfold load_users. simpl.
    by rewrite Hl, Hf. }
  split; [|done].
  induction evs as [|[ts ev] evs IH]; [done|].
  simpl. by rewrite Hrun.
Qed.

Lemma no_login_without_users_file_witness :
  replay {| users_file := None; mapping_file := None; data_files := ∅ |}
    [("t0", LoginSubmit "alice" "wonder"); ("t1", ClickStart)]
    fresh_session demo.log1
  = (fresh_session, demo.log1).
Proof.
  by destruct (no_login_without_users_file
                 {| users_file := None; mapping_file := None;
                    data_files := ∅ |}
                 [("t0", LoginSubmit "alice" "wonder"); ("t1", ClickStart)]
                 fresh_session demo.log1 eq_refl eq_refl) as [Hsame _].
Defined.

Section invariants.

Implicit Types (d : disk) (s : session_state) (l : gmap string pd.xlsx).

Lemma attributes_present_interact n d ts ev s l :
  pools_have_ids d → attributes_present s →
  attributes_present (session (interact n d ts ev s l).2).
Proof.
  intros Hids. revert ts ev s l.
  induction n as [|n IH]; intros ts ev s l Hs; cbn [interact];
    pose proof (attributes_present_run d ts ev s l Hids Hs) as Hs';
    destruct (run_script d ts ev s l) as [[a| |e] st'];
    cbn [fst snd] in *; try done.
  by apply IH.
Qed.

Lemma attributes_present_replay d evs s l :
  pools_have_ids d → attributes_present s →
  attributes_present (replay d evs s l).1.
Proof.
  intros Hids. revert s l.
  induction evs as [|[ts ev] evs IH]; intros s l Hs; cbn [replay]; [done|].
  apply IH. by apply attributes_present_interact.
Qed.

(** Rating more reports leaves fewer to rate. *)
Lemma reports_to_rate_mono all_reports (rated rated' : gset string) :
  rated ⊆ rated' →
  length (reports_to_rate all_reports rated')
  ≤ length (reports_to_rate all_reports rated).
Proof.
  intros Hsub. unfold reports_to_rate.
  induction all_reports as [|r rs IH]; simpl; [done|].
  destruct (unrated rated' r) eqn:Hr'.
  - assert (unrated rated r = true) as ->.
    { apply unrated_true. apply unrated_true in Hr'.
      intros (i & Hi & Hin). apply Hr'. exists i. split; [done|].
      by apply Hsub. }
    simpl. lia.
  - destruct (unrated rated r); simpl; lia.
Qed.

Lemma pools_have_ids_Forall d :
  map_Forall (λ _ reports, Forall (λ r, is_Some (r !! "rating_id")) reports)
             (data_files d) →
  pools_have_ids d.
Proof.
  intros Hall p reports r Hp Hr. specialize (Hall p reports Hp).
  simpl in Hall. rewrite Forall_forall in Hall. by apply Hall.
Qed.

Lemma reports_to_rate_selected_lt all_reports (rated : gset string) i :
  next_unrated all_reports rated = Next i →
  length (reports_to_rate all_reports (rated ∪ {[i]}))
  < length (reports_to_rate all_reports rated)
  ∧ length (reports_to_rate all_reports rated) ≤ length all_reports.
Proof.
  intros (pre & r & post & -> & Hpre & Hi & Hn)%next_unrated_Next.
  split.
  - unfold reports_to_rate. rewrite !List.filter_app. simpl.
    assert (unrated rated r = true) as ->.
    { apply unrated_true. intros (j & Hj & ?). congruence. }
    assert (unrated (rated ∪ {[i]}) r = false) as ->.
    { apply unrated_false. exists i. split; [done|set_solver]. }
    pose proof (reports_to_rate_mono pre rated (rated ∪ {[i]})) as Hp.
    pose proof (reports_to_rate_mono post rated (rated ∪ {[i]})) as Hq.
    unfold reports_to_rate in Hp, Hq.
    rewrite !length_app. simpl.
    assert (rated ⊆ rated ∪ {[i]}) as Hsub by set_solver.
    specialize (Hp Hsub). specialize (Hq Hsub). lia.
  - unfold reports_to_rate. apply List.filter_length_le.
Qed.

End invariants.

(** X11. When every report of every report file has a [rating_id], a
    session never misses an attribute that a page reads: a session that
    starts has them, an execution keeps them whatever the event and the
    logs, and so after any interactions the session has its [username]
    while logged in and its [selected_report_id] on the rating page. *)
Theorem session_attributes_always_present d :
  pools_have_ids d →
  attributes_present fresh_session
  ∧ (∀ ts ev s l,
       attributes_present s →
       attributes_present (session (run_script d ts ev s l).2))
  ∧ (∀ evs l, attributes_present (replay d evs fresh_session l).1).
Proof.
  intros Hids.
  assert (attributes_present fresh_session) as Hfresh by by intros [=].
  split; [done|]. split.
  - intros ts ev s l. by apply attributes_present_run.
  - intros evs l. by apply attributes_present_replay.
Qed.

Lemma session_attributes_always_present_witness :
  attributes_present
    (replay demo.files [("t0", LoginSubmit "alice" "wonder");
                        ("t1", ClickStart)] fresh_session ∅).1.
Proof.
  destruct (session_attributes_always_present demo.files)
    as (_ & _ & Hreplay).
  - apply pools_have_ids_Forall.
    apply (bool_decide_unpack _). by vm_compute.
  - apply Hreplay.
Defined.

(** X12. A report without [rating_id] blocks the session: when the first
    report left to rate has none, the start button sets the page to
    "rating", raises [KeyError] and selects nothing; from then on every
    interaction of the session, whatever the event, raises
    [AttributeError] and changes nothing, so the user cannot even log
    out. *)
Theorem report_without_rating_id_blocks_session d ts s l u :
  logged_in s = true → page s = "progress" → username s = Some u →
  selected_report_id s = None →
  length (pool_of d u) = 0
    ∨ size (get_rated_reports l u) ≤ length (pool_of d u) →
  next_unrated (pool_of d u) (get_rated_reports l u) = NoRatingId →
  (interact 2 d ts ClickStart s l).1 = Raised (KeyError "rating_id")
  ∧ session (interact 2 d ts ClickStart s l).2 = set_page "rating" s
  ∧ logs (interact 2 d ts ClickStart s l).2 = l
  ∧ (∀ ts' ev',
       interact 2 d ts' ev' (set_page "rating" s) l
       = (Raised (AttributeError "selected_report_id"),
          {| session := set_page "rating" s; logs := l; screen := [] |}))
  ∧ (∀ evs, replay d evs (set_page "rating" s) l
            = (set_page "rating" s, l)).
Proof.
  intros Hl Hp Hu Hsel Hbar Hnext.
  pose proof (start_rating d ts s l u Hl Hp Hu Hbar) as Hrun.
  simpl in Hrun. rewrite Hnext in Hrun.
  rewrite interact_at_rest by (by rewrite Hrun). rewrite Hrun.
  split; [done|]. split; [done|]. split; [done|].
  assert (∀ ts' ev',
            interact 2 d ts' ev' (set_page "rating" s) l
            = (Raised (AttributeError "selected_report_id"),
               {| session := set_page "rating" s; logs := l;
                  screen := [] |})) as Hstuck.
  { intros ts' ev'.
    pose proof (no_selected_report d ts' ev' (set_page "rating" s) l
                  Hl eq_refl Hsel) as Hrun'.
    rewrite interact_at_rest by (by rewrite Hrun'). done. }
  split; [done|].
  induction evs as [|[ts' ev'] evs IH]; [done|].
  cbn [replay]. by rewrite Hstuck.
Qed.

Lemma report_without_rating_id_blocks_session_witness :
  interact 2 flawed.files "t3" ClickLogout
    (demo.alice "rating" None) demo.log1
  = (Raised (AttributeError "selected_report_id"),
     {| session := demo.alice "rating" None; logs := demo.log1;
        screen := [] |}).
Proof.
  destruct (report_without_rating_id_blocks_session flawed.files "t2"
              (demo.alice "progress" None) demo.log1 "alice")
    as (_ & _ & _ & Hstuck & _).
  - reflexivity.
  - reflexivity.
  - reflexivity.
  - reflexivity.
  - right. vm_compute. lia.
  - by vm_compute.
  - apply Hstuck.
Defined.

(** X13. A rating submitted while the log file of the user cannot be read
    is lost: the log is left as it was and the rated set stays empty, yet
    "Rating submitted!" is drawn next to the log error, and the report
    selected next is the first one other than the report just
    submitted. *)
Theorem submit_on_unreadable_log_is_lost d ts s l u sel report r c :
  logged_in s = true → page s = "rating" → username s = Some u →
  selected_report_id s = Some sel →
  get_report_by_id (data_files d) sel
    (get_report_file_for_user (mapping_file d) u) = Some report →
  l !! u = Some pd.Garbage →
  logs (run_script d ts (ClickSubmit r c) s l).2 = l
  ∧ get_rated_reports (logs (run_script d ts (ClickSubmit r c) s l).2) u = ∅
  ∧ screen (run_script d ts (ClickSubmit r c) s l).2
    = [st_title (String.append "Rating Report: " sel);
       st_text (default "N/A" (report !! "report_to_rate"));
       st_sidebar_error BadWorkbook;
       st_success "Rating submitted!"]
  ∧ match next_unrated (pool_of d u) {[sel]} with
    | Next i =>
        (run_script d ts (ClickSubmit r c) s l).1 = Rerun
        ∧ session (run_script d ts (ClickSubmit r c) s l).2
          = set_selected_report_id (Some i) s
    | AllRated =>
        (run_script d ts (ClickSubmit r c) s l).1 = Rerun
        ∧ session (run_script d ts (ClickSubmit r c) s l).2
          = set_selected_report_id None (set_page "progress" s)
    | NoRatingId =>
        (run_script d ts (ClickSubmit r c) s l).1
        = Raised (KeyError "rating_id")
        ∧ session (run_script d ts (ClickSubmit r c) s l).2 = s
    end.
Proof.
  intros Hl Hp Hu Hsel Hrep Hlog.
  assert (get_rated_reports l u = ∅) as Hrated.
  { unfold get_rated_reports. by rewrite Hlog. }
  unfold next_unrated, pool_of.
  script_unfold. simpl. rewrite Hl, Hp. simpl. rewrite Hsel. simpl.
  rewrite Hu. simpl. rewrite Hrep. simpl.
  unfold log_action_files. rewrite Hlog. simpl.
  rewrite Hrated, (left_id_L ∅ (∪)).
  destruct (reports_to_rate _ _) as [|r' rest]; simpl.
  - by rewrite Hrated.
  - destruct (r' !! "rating_id"); simpl; by rewrite Hrated.
Qed.

Lemma submit_on_unreadable_log_is_lost_witness :
  logs (run_script demo.files "t2" (ClickSubmit NoError "")
          (demo.alice "rating" (Some "r1")) demo.broken_log).2
  = demo.broken_log.
Proof.
  eapply (submit_on_unreadable_log_is_lost demo.files "t2"
            (demo.alice "rating" (Some "r1")) demo.broken_log "alice" "r1").
  - reflexivity.
  - reflexivity.
  - reflexivity.
  - reflexivity.
  - reflexivity.
  - reflexivity.
Defined.



(** X15. Rating the selected report leaves strictly fewer reports to rate,
    and there are never more reports to rate than the pool has: the
    rating loop ends after at most as many recorded ratings as the pool
    has reports. *)
Theorem rating_selected_report_leaves_fewer all_reports rated i :
  next_unrated all_reports rated = Next i →
  length (reports_to_rate all_reports (rated ∪ {[i]}))
  < length (reports_to_rate all_reports rated)
  ∧ length (reports_to_rate all_reports rated) ≤ length all_reports.
Proof. apply reports_to_rate_selected_lt. Qed.

Lemma rating_selected_report_leaves_fewer_witness :
  length (reports_to_rate (pool_of demo.files "alice")
            (get_rated_reports demo.log1 "alice" ∪ {["r2"]}))
  < length (reports_to_rate (pool_of demo.files "alice")
              (get_rated_reports demo.log1 "alice")).
Proof.
  eapply (rating_selected_report_leaves_fewer
            (pool_of demo.files "alice")
            (get_rated_reports demo.log1 "alice") "r2").
  by vm_compute.
Defined.

Section rating_loop.

Implicit Types (d : disk) (s : session_state) (l : gmap string pd.xlsx).

Lemma find_report_first rating_id pre report post :
  Forall (λ r, r !! "rating_id" ≠ Some rating_id) pre →
  report !! "rating_id" = Some rating_id →
  find_report rating_id (pre ++ report :: post) = Some report.
Proof.
  intros Hpre Hid. induction Hpre as [|r pre Hr _ IH]; simpl.
  - by rewrite decide_True.
  - by rewrite decide_False.
Qed.

(** The report selected next is the report that [get_report_by_id] finds
    under its [rating_id]. *)
Lemma selected_report_found d u rated i :
  next_unrated (pool_of d u) rated = Next i →
  ∃ report rest,
    reports_to_rate (pool_of d u) rated = report :: rest
    ∧ report !! "rating_id" = Some i
    ∧ get_report_by_id (data_files d) i
        (get_report_file_for_user (mapping_file d) u) = Some report.
Proof.
  intros Hnext.
  pose proof Hnext as (pre & r & post & Hpool & Hpre & Hi & Hn)%next_unrated_Next.
  destruct (reports_to_rate_first pre r post rated Hpre) as [rest Hrest].
  { intros (j & Hj & ?). congruence. }
  exists r, rest. rewrite Hpool. split; [done|]. split; [done|].
  unfold get_report_by_id. fold (pool_of d u). rewrite Hpool.
  apply find_report_first; [|done].
  eapply Forall_impl; [exact Hpre|].
  intros r' (j & Hj & Hin) Heq. congruence.
Qed.

Lemma rating_page_idle d ts s l u sel report :
  logged_in s = true → page s = "rating" → username s = Some u →
  selected_report_id s = Some sel →
  get_report_by_id (data_files d) sel
    (get_report_file_for_user (mapping_file d) u) = Some report →
  run_script d ts NoEvent s l
  = (Done (),
     {| session := s; logs := l;
        screen := [st_title (String.append "Rating Report: " sel);
                   st_text (default "N/A" (report !! "report_to_rate"))] |}).
Proof.
  intros Hl Hp Hu Hsel Hrep. script_unfold. simpl.
  rewrite Hl, Hp. simpl. rewrite Hsel. simpl. rewrite Hu. simpl.
  by rewrite Hrep.
Qed.

End rating_loop.

(** X18. The start button shows the report it selects: when a report is
    left to rate, the interaction ends on the rating page of the first
    report that is not rated, found under its [rating_id], with its text
    drawn ("N/A" when it has none), and writes no log. *)
Theorem start_shows_first_unrated_report d ts s l u i :
  logged_in s = true → page s = "progress" → username s = Some u →
  length (pool_of d u) = 0
    ∨ size (get_rated_reports l u) ≤ length (pool_of d u) →
  next_unrated (pool_of d u) (get_rated_reports l u) = Next i →
  ∃ report rest,
    reports_to_rate (pool_of d u) (get_rated_reports l u) = report :: rest
    ∧ get_report_by_id (data_files d) i
        (get_report_file_for_user (mapping_file d) u) = Some report
    ∧ interact 2 d ts ClickStart s l
      = (Done (),
         {| session := set_selected_report_id (Some i) (set_page "rating" s);
            logs := l;
            screen :=
              [st_title (String.append "Rating Report: " i);
               st_text (default "N/A" (report !! "report_to_rate"))] |}).
Proof.
  intros Hl Hp Hu Hbar Hnext.
  destruct (selected_report_found d u _ i Hnext)
    as (report & rest & Hhead & _ & Hrep).
  exists report, rest. split; [done|]. split; [done|].
  pose proof (start_rating d ts s l u Hl Hp Hu Hbar) as Hrun.
  cbn zeta in Hrun. rewrite Hnext in Hrun.
  rewrite (interact_rerun 1 _ _ _ _ _ _ Hrun). cbn [session logs].
  pose proof (rating_page_idle d ts
                (set_selected_report_id (Some i) (set_page "rating" s)) l
                u i report Hl eq_refl Hu eq_refl Hrep) as Hrun2.
  rewrite interact_at_rest by (by rewrite Hrun2). done.
Qed.

Lemma start_shows_first_unrated_report_witness :
  ∃ report rest,
    reports_to_rate (pool_of demo.files "alice")
      (get_rated_reports demo.log1 "alice") = report :: rest
    ∧ get_report_by_id (data_files demo.files) "r2"
        (get_report_file_for_user (mapping_file demo.files) "alice")
      = Some report
    ∧ interact 2 demo.files "t2" ClickStart (demo.alice "progress" None)
        demo.log1
      = (Done (),
         {| session := demo.alice "rating" (Some "r2"); logs := demo.log1;
            screen :=
              [st_title (String.append "Rating Report: " "r2");
               st_text (default "N/A" (report !! "report_to_rate"))] |}).
Proof.
  apply (start_shows_first_unrated_report demo.files "t2"
           (demo.alice "progress" None) demo.log1 "alice" "r2").
  - reflexivity.
  - reflexivity.
  - reflexivity.
  - right. vm_compute. lia.
  - by vm_compute.
Defined.

(** X20. The admin page writes nothing: whatever the event, it leaves the
    logs directory as it was; its back button sets the page to "progress"
    and reruns, and any other event leaves the session as it was. *)
Theorem admin_page_writes_nothing d ts ev s l :
  logged_in s = true → page s = "admin" → is_admin s = Some true →
  logs (run_script d ts ev s l).2 = l
  ∧ (ev = ClickBack →
     (run_script d ts ev s l).1 = Rerun
     ∧ session (run_script d ts ev s l).2 = set_page "progress" s)
  ∧ (ev ≠ ClickBack → session (run_script d ts ev s l).2 = s).
Proof.
  intros Hl Hp Ha. script_unfold. unfold admin_flag. simpl.
  rewrite Hl, Hp, Ha. simpl.
  destruct ev; simpl; repeat split; try done.
Qed.

Lemma admin_page_writes_nothing_witness :
  logs (run_script demo.files "t1" ClickBack (demo.root "admin")
          demo.log1).2 = demo.log1
  ∧ session (run_script demo.files "t1" ClickBack (demo.root "admin")
               demo.log1).2 = demo.root "progress".
Proof.
  destruct (admin_page_writes_nothing demo.files "t1" ClickBack
              (demo.root "admin") demo.log1 eq_refl eq_refl eq_refl)
    as (Hlogs & Hback & _).
  destruct (Hback eq_refl) as [_ Hs]. by split.
Defined.
